(** * Sparkpython: the record-to-feature transformer [row_to_labeled_point]

    A shallow embedding of the one function the notebook defines,

    <<
    def row_to_labeled_point(line):
        passenger_id, klass, age, sex, survived = \
            [segs.strip(DQUOTE) for segs in line.split(',')]
        klass = int(klass[0]) - 1
        if (age not in ['adults', 'child'] or
            sex not in ['man', 'women'] or
            survived not in ['yes', 'no']):
            raise RuntimeError('unknown value')
        features = [klass,
                    (1 if age == 'adults' else 0),
                    (1 if sex == 'women' else 0)]
        return LabeledPoint(1 if survived == 'yes' else 0, features)
    >>

    (DQUOTE stands for the one-character string holding a double quote.)
    A Python string is a sequence of Unicode code points, and is modelled
    as such: [str] is a list of code points.  On a one-character string
    [int] accepts exactly the characters that have a decimal value in the
    Unicode database of the interpreter, the Arabic-Indic or Devanagari
    digits as well as '0' .. '9'; that database is an interface here,
    [UnicodeData], with the table of Unicode 14.0.0 as its instance.
    Exceptions are modelled by an error monad; the function is written
    once, over any monad that can raise, and run in the plain error monad
    [result]. *)

From Stdlib Require Import String Ascii List ZArith NArith Lia Bool.
From ExtLib Require Import Structures.Monad Structures.MonadExc.
Import ListNotations.
Import MonadNotation.
Local Open Scope string_scope.
Local Open Scope list_scope.
Local Open Scope monad_scope.

(** ** Python strings *)

(** A character is a Unicode code point, a string a sequence of them. *)
Definition char : Type := N.
Definition str : Type := list char.

(** A literal of the source, character by character. *)
Definition lit (s : string) : str :=
  map N_of_ascii (list_ascii_of_string s).
Arguments lit : simpl never.

(** ** The [str] methods the function calls *)

Module PyStr.

Definition comma : char := 44%N.
Definition dquote : char := 34%N.

(** [s == t]. *)
Fixpoint eqb (s t : str) : bool :=
  match s, t with
  | [], [] => true
  | a :: s', b :: t' => N.eqb a b && eqb s' t'
  | _, _ => false
  end.

(** [s.split(sep)] for a one-character separator: cut at every
    occurrence, keep empty segments, never return the empty list. *)
Fixpoint split (sep : char) (s : str) : list str :=
  match s with
  | [] => [[]]
  | c :: s' =>
      if N.eqb c sep then [] :: split sep s'
      else match split sep s' with
           | seg :: segs => (c :: seg) :: segs
           | [] => [[c]]
           end
  end.

(** [s.lstrip(c)]: drop the leading run of [c]. *)
Fixpoint lstrip (c : char) (s : str) : str :=
  match s with
  | [] => []
  | a :: s' => if N.eqb a c then lstrip c s' else s
  end.

(** [s.rstrip(c)]: drop the trailing run of [c]. *)
Fixpoint rstrip (c : char) (s : str) : str :=
  match s with
  | [] => []
  | a :: s' =>
      match rstrip c s' with
      | [] => if N.eqb a c then [] else [a]
      | r => a :: r
      end
  end.

(** [s.strip(c)]: the left end is found first, then the right end of
    what remains. *)
Definition strip (c : char) (s : str) : str := rstrip c (lstrip c s).

(** [sep.join(l)]. *)
Fixpoint join (sep : char) (l : list str) : str :=
  match l with
  | [] => []
  | [x] => x
  | x :: rest => x ++ sep :: join sep rest
  end.

(** Number of occurrences of a character. *)
Fixpoint count (c : char) (s : str) : nat :=
  match s with
  | [] => 0
  | a :: s' => (if N.eqb a c then 1 else 0) + count c s'
  end.

(** [x in l] for a list of strings. *)
Definition mem (x : str) (l : list str) : bool :=
  existsb (eqb x) l.
Arguments mem : simpl never.

(** A field content wrapped in double quotes. *)
Definition quote (s : str) : str := dquote :: s ++ [dquote].

End PyStr.
Import PyStr.

(** ** The Unicode database

    [decimal c] is what [unicodedata.decimal] gives for the character
    [c]: its value as a decimal digit, if it is one.  Every version of
    the database has '0' .. '9' as the only decimal digits of ASCII, and
    values from 0 to 9 only. *)

Class UnicodeData : Type := {
  decimal : char -> option Z;
  decimal_ascii :
    forall c, (c < 128)%N ->
      decimal c = if ((48 <=? c) && (c <=? 57))%N
                  then Some (Z.of_N c - 48)%Z else None;
  decimal_range :
    forall c v, decimal c = Some v -> (0 <= v <= 9)%Z
}.

(** The decimal digits of Unicode 14.0.0 (the database of CPython 3.11):
    66 runs of ten characters, the digits zero to nine of a script, each
    run given by the code point of its zero. *)
Definition decimal_blocks : list N :=
  [ 48; 1632; 1776; 1984; 2406; 2534; 2662; 2790; 2918; 3046; 3174;
    3302; 3430; 3558; 3664; 3792; 3872; 4160; 4240; 6112; 6160; 6470;
    6608; 6784; 6800; 6992; 7088; 7232; 7248; 42528; 43216; 43264;
    43472; 43504; 43600; 44016; 65296; 66720; 68912; 69734; 69872;
    69942; 70096; 70384; 70736; 70864; 71248; 71360; 71472; 71904;
    72016; 72784; 73040; 73120; 92768; 92864; 93008; 120782; 120792;
    120802; 120812; 120822; 123200; 123632; 125264; 130032 ]%N.

Fixpoint lookup_block (blocks : list N) (c : char) : option Z :=
  match blocks with
  | [] => None
  | zero :: rest =>
      if ((zero <=? c) && (c <? zero + 10))%N then Some (Z.of_N (c - zero))
      else lookup_block rest c
  end.

(** The characters [int] accepts and their values.  Throughout, a digit
    is such a character: '0' .. '9' or a decimal digit of another
    script. *)
Definition is_digit {U : UnicodeData} (c : char) : bool :=
  match decimal c with
  | Some _ => true
  | None => false
  end.

Definition digit_value {U : UnicodeData} (c : char) : Z :=
  match decimal c with
  | Some v => v
  | None => 0%Z
  end.

(** ** Exceptions and the result record *)

Inductive value_error : Type :=
| NotEnoughValues (expected got : nat)  (* not enough values to unpack *)
| TooManyValues (expected : nat)        (* too many values to unpack *)
| InvalidLiteral (literal : str).       (* invalid literal for int() *)

Inductive exn : Type :=
| ValueError (why : value_error)
| IndexError                            (* string index out of range *)
| RuntimeError (msg : str).

(** The two error kinds of the specification: a line that does not split
    into five fields or whose class field has no leading digit is a
    structural error; the explicit [raise] is a validation error. *)
Inductive error_kind : Type := StructuralError | ValidationError.

Definition kind_of (e : exn) : error_kind :=
  match e with
  | ValueError _ | IndexError => StructuralError
  | RuntimeError _ => ValidationError
  end.

(** [LabeledPoint(label, features)]: the constructor stores both
    arguments; the numbers that occur here are small integers. *)
Record LabeledPoint : Type := mkLabeledPoint {
  label : Z;
  features : list Z
}.

(** The list comprehension: every comma-separated segment, stripped of
    the double quotes at its two ends. *)
Definition stripped_fields (line : str) : list str :=
  map (strip dquote) (split comma line).

(** ** The function, over any monad with exceptions *)

Section Generic.
Context {m : Type -> Type} {Monad_m : Monad m} {Exc_m : MonadExc exn m}.
Context {U : UnicodeData}.

(** Unpacking a list into five names. *)
Definition unpack5 (l : list str) : m (str * str * str * str * str) :=
  match l with
  | [a; b; c; d; e] => ret (a, b, c, d, e)
  | _ => if (length l <? 5)%nat
         then raise (ValueError (NotEnoughValues 5 (length l)))
         else raise (ValueError (TooManyValues 5))
  end.

(** [s[0]]. *)
Definition index0 (s : str) : m char :=
  match s with
  | [] => raise IndexError
  | c :: _ => ret c
  end.

(** [int(c)] on a one-character string. *)
Definition int (c : char) : m Z :=
  if is_digit c then ret (digit_value c)
  else raise (ValueError (InvalidLiteral [c])).

Definition row_to_labeled_point_in (line : str) : m LabeledPoint :=
  '(passenger_id, klass, age, sex, survived) <-
      unpack5 (stripped_fields line) ;;
  c <- index0 klass ;;
  n <- int c ;;
  let klass := (n - 1)%Z in
  if negb (mem age [lit "adults"; lit "child"])
     || negb (mem sex [lit "man"; lit "women"])
     || negb (mem survived [lit "yes"; lit "no"])
  then raise (RuntimeError (lit "unknown value"))
  else
    let features :=
      [ klass;
        (if eqb age (lit "adults") then 1 else 0)%Z;
        (if eqb sex (lit "women") then 1 else 0)%Z ] in
    ret (mkLabeledPoint (if eqb survived (lit "yes") then 1 else 0)%Z
                        features).
End Generic.

(** ** The error monad: a value or a raised exception *)

Inductive result (A : Type) : Type :=
| Ok (a : A)
| Raise (e : exn).
Arguments Ok {A} a.
Arguments Raise {A} e.

#[export] Instance Monad_result : Monad result :=
  {| ret := fun _ a => Ok a;
     bind := fun _ _ c k => match c with Ok a => k a | Raise e => Raise e end |}.

#[export] Instance Exc_result : MonadExc exn result :=
  {| raise := fun _ e => Raise e;
     catch := fun _ c h => match c with Ok a => Ok a | Raise e => h e end |}.

(** The function as Python runs it. *)
Definition row_to_labeled_point {U : UnicodeData} (line : str)
  : result LabeledPoint :=
  row_to_labeled_point_in line.

(** ** Vocabulary of the statements *)

(** A field that holds [content], bare or wrapped in double quotes. *)
Definition optionally_quoted (content field : str) : Prop :=
  field = content \/ field = quote content.

(** A failure of the given kind. *)
Definition fails_with (k : error_kind) (r : result LabeledPoint) : Prop :=
  exists e, r = Raise e /\ kind_of e = k.

Definition ages : list str := [lit "adults"; lit "child"].
Definition sexes : list str := [lit "man"; lit "women"].
Definition outcomes : list str := [lit "yes"; lit "no"].

(** ** The cells that prepare the lines

    <<
    header = raw_rdd.first()
    data_rdd = raw_rdd.filter(lambda line: line != header)
    >>

    An RDD of text lines is modelled by the list of its lines in file
    order: [first] gives the first line and raises on an RDD without
    lines (here [None]), [filter] keeps the lines that satisfy the
    predicate, in order. *)

Module Cells.

Definition first (rdd : list str) : option str :=
  match rdd with
  | [] => None
  | line :: _ => Some line
  end.

Definition data_rdd (raw_rdd : list str) : option (list str) :=
  match first raw_rdd with
  | None => None
  | Some header =>
      Some (filter (fun line => negb (eqb line header)) raw_rdd)
  end.

End Cells.

(** ** More vocabulary: runs of a character, the two ends of a string *)

Fixpoint replicate (n : nat) (c : char) : str :=
  match n with
  | O => []
  | S n' => c :: replicate n' c
  end.

Definition first_char (s : str) : option char :=
  match s with
  | [] => None
  | a :: _ => Some a
  end.

Fixpoint last_char (s : str) : option char :=
  match s with
  | [] => None
  | [a] => Some a
  | _ :: t => last_char t
  end.

(** No occurrence of the separator. *)
Definition free_of (sep : char) (s : str) : Prop := count sep s = 0.

Definition str_dec : forall s t : str, {s = t} + {s <> t} :=
  list_eq_dec N.eq_dec.

(** ** The table of Unicode 14.0.0 is a Unicode database *)

Lemma lookup_block_range (blocks : list N) (c : char) (v : Z) :
  lookup_block blocks c = Some v -> (0 <= v <= 9)%Z.
Proof.
  induction blocks as [|zero rest IH]; cbn; [discriminate|].
  destruct ((zero <=? c) && (c <? zero + 10))%N eqn:E; [|exact IH].
  apply andb_true_iff in E. destruct E as [E1 E2].
  apply N.leb_le in E1. apply N.ltb_lt in E2.
  intros H. injection H as <-. lia.
Qed.

Lemma lookup_block_below (bound : N) (blocks : list N) (c : char) :
  forallb (fun zero => (bound <=? zero)%N) blocks = true ->
  (c < bound)%N ->
  lookup_block blocks c = None.
Proof.
  intros Hall Hc. induction blocks as [|zero rest IH]; [reflexivity|].
  cbn in Hall |- *. apply andb_true_iff in Hall. destruct Hall as [Hz Hrest].
  apply N.leb_le in Hz.
  destruct (N.leb_spec zero c) as [Hle | Hgt]; [lia|].
  cbn. now apply IH.
Qed.

Lemma lookup_block_ascii (c : char) :
  (c < 128)%N ->
  lookup_block decimal_blocks c
  = if ((48 <=? c) && (c <=? 57))%N then Some (Z.of_N c - 48)%Z else None.
Proof.
  intros Hc.
  change (lookup_block decimal_blocks c)
    with (if ((48 <=? c) && (c <? 48 + 10))%N then Some (Z.of_N (c - 48))
          else lookup_block (tl decimal_blocks) c).
  rewrite (lookup_block_below 128 (tl decimal_blocks) c eq_refl Hc).
  destruct (N.leb_spec 48 c) as [H48 | H48];
    destruct (N.ltb_spec c (48 + 10)) as [H58 | H58];
    destruct (N.leb_spec c 57) as [H57 | H57];
    cbn; try reflexivity; try lia.
  f_equal. lia.
Qed.

#[export] Instance Unicode_14 : UnicodeData :=
  {| decimal := lookup_block decimal_blocks;
     decimal_ascii := lookup_block_ascii;
     decimal_range := lookup_block_range decimal_blocks |}.

(** ** Facts about the string operations *)

Lemma str_eqb_eq (s t : str) : eqb s t = true <-> s = t.
Proof.
  revert t. induction s as [|a s IH]; intros [|b t]; cbn;
    try (split; [discriminate | discriminate]); [tauto|].
  rewrite andb_true_iff, N.eqb_eq, IH. split.
  - intros [-> ->]. reflexivity.
  - intros H. injection H as -> ->. now split.
Qed.

Lemma str_eqb_refl (s : str) : eqb s s = true.
Proof. now apply str_eqb_eq. Qed.

Lemma str_eqb_neq (s t : str) : eqb s t = false <-> s <> t.
Proof.
  rewrite <- str_eqb_eq. destruct (eqb s t); split; congruence.
Qed.

Section StringFacts.
Variable sep : char.

Lemma split_length (s : str) : length (split sep s) = S (count sep s).
Proof.
  induction s as [|a s IH]; simpl; [reflexivity|].
  destruct (N.eqb a sep); simpl.
  - now rewrite IH.
  - destruct (split sep s); simpl in *; [discriminate | exact IH].
Qed.

Lemma count_app (s t : str) :
  count sep (s ++ t) = count sep s + count sep t.
Proof.
  induction s as [|a s IH]; simpl; [reflexivity|].
  rewrite IH. lia.
Qed.

Lemma count_join (l : list str) :
  count sep (join sep l)
  = (length l - 1) + list_sum (map (count sep) l).
Proof.
  induction l as [|x rest IH]; [reflexivity|].
  destruct rest as [|y rest'].
  - simpl. lia.
  - change (join sep (x :: y :: rest'))
      with (x ++ sep :: join sep (y :: rest')).
    rewrite count_app. cbn [count].
    rewrite N.eqb_refl, IH. simpl. lia.
Qed.

Lemma count_le_sum (f : str) (l : list str) :
  In f l -> count sep f <= list_sum (map (count sep) l).
Proof.
  induction l as [|x rest IH]; simpl; [tauto|].
  intros [-> | Hin]; [lia|]. specialize (IH Hin). lia.
Qed.

Lemma split_join_length (l : list str) (f : str) :
  In f l ->
  length l + count sep f <= length (split sep (join sep l)).
Proof.
  intros Hin. rewrite split_length, count_join.
  pose proof (count_le_sum f l Hin).
  destruct l; [contradiction | simpl length; lia].
Qed.
End StringFacts.

Section StripFacts.
Variable q : char.

Lemma lstrip_snoc (s : str) :
  lstrip q (s ++ [q])
  = match lstrip q s with
    | [] => []
    | t => t ++ [q]
    end.
Proof.
  induction s as [|a s IH]; simpl.
  - now rewrite N.eqb_refl.
  - destruct (N.eqb a q); [exact IH | reflexivity].
Qed.

Lemma rstrip_snoc (s : str) :
  rstrip q (s ++ [q]) = rstrip q s.
Proof.
  induction s as [|a s IH]; simpl.
  - now rewrite N.eqb_refl.
  - now rewrite IH.
Qed.

(** Wrapping a content in the stripped character is undone by [strip]. *)
Lemma strip_wrapped (s : str) :
  strip q (q :: s ++ [q]) = strip q s.
Proof.
  unfold strip. simpl lstrip. rewrite N.eqb_refl, lstrip_snoc.
  destruct (lstrip q s) as [|a t] eqn:E; [reflexivity|].
  apply (rstrip_snoc (a :: t)).
Qed.

Lemma strip_idempotent (s : str) : strip q (strip q s) = strip q s.
Proof.
  unfold strip.
  assert (L : forall t, lstrip q (lstrip q t) = lstrip q t).
  { induction t as [|a t IH]; simpl; [reflexivity|].
    destruct (N.eqb a q) eqn:E; [exact IH | simpl; now rewrite E]. }
  assert (R : forall t, rstrip q (rstrip q t) = rstrip q t).
  { induction t as [|a t IH]; simpl; [reflexivity|].
    destruct (rstrip q t) as [|b r] eqn:E.
    - destruct (N.eqb a q) eqn:E'; simpl; [reflexivity | now rewrite E'].
    - simpl in IH |- *. destruct (rstrip q r) eqn:E2.
      + destruct (N.eqb b q); congruence.
      + congruence. }
  (* the left end of a right-stripped string that starts with a kept
     character is already in place *)
  assert (K : forall t, lstrip q (rstrip q (lstrip q t)) = rstrip q (lstrip q t)).
  { intros t. destruct (lstrip q t) as [|a u] eqn:E; [reflexivity|].
    assert (Ha : N.eqb a q = false).
    { clear -E. induction t as [|b t IH]; simpl in E; [discriminate|].
      destruct (N.eqb b q) eqn:Eb; [auto | congruence]. }
    simpl. destruct (rstrip q u); rewrite ?Ha; simpl; now rewrite Ha. }
  now rewrite K, R.
Qed.
End StripFacts.

Lemma strip_quote (s : str) : strip dquote (quote s) = strip dquote s.
Proof. apply strip_wrapped. Qed.

Lemma mem_In (x : str) (l : list str) : mem x l = true <-> In x l.
Proof.
  unfold mem. rewrite existsb_exists. split.
  - intros [y [Hy E]]. apply str_eqb_eq in E. now subst.
  - intros H. exists x. split; [exact H | apply str_eqb_refl].
Qed.

Lemma not_mem_In (x : str) (l : list str) :
  negb (mem x l) = true <-> ~ In x l.
Proof.
  rewrite <- mem_In. destruct (mem x l); simpl; split; intros H;
    congruence.
Qed.

(** ** The function, case by case *)

Lemma stripped_fields_length (line : str) :
  length (stripped_fields line) = length (split comma line).
Proof. apply length_map. Qed.

(** Fewer than five segments: the unpacking raises. *)
Lemma row_too_few {U : UnicodeData} (line : str) :
  length (split comma line) < 5 ->
  row_to_labeled_point line
  = Raise (ValueError (NotEnoughValues 5 (length (split comma line)))).
Proof.
  rewrite <- stripped_fields_length.
  unfold row_to_labeled_point, row_to_labeled_point_in.
  destruct (stripped_fields line) as [|a [|b [|c [|d [|e l]]]]];
    simpl; intros H; try reflexivity; lia.
Qed.

(** More than five segments: the unpacking raises. *)
Lemma row_too_many {U : UnicodeData} (line : str) :
  5 < length (split comma line) ->
  row_to_labeled_point line = Raise (ValueError (TooManyValues 5)).
Proof.
  rewrite <- stripped_fields_length.
  unfold row_to_labeled_point, row_to_labeled_point_in.
  destruct (stripped_fields line) as [|a [|b [|c [|d [|e [|f l]]]]]];
    simpl; intros H; try reflexivity; lia.
Qed.

Section FiveFields.
Context {U : UnicodeData}.
Variables (line passenger_id klass age sex survived : str).
Hypothesis Hfields :
  stripped_fields line = [passenger_id; klass; age; sex; survived].

(** An empty class field: [klass[0]] raises. *)
Lemma row_empty_class :
  klass = [] -> row_to_labeled_point line = Raise IndexError.
Proof.
  intros ->. unfold row_to_labeled_point, row_to_labeled_point_in.
  now rewrite Hfields.
Qed.

(** A class field that starts with something else than a digit:
    [int] raises. *)
Lemma row_no_digit (c : char) (rest : str) :
  klass = (c :: rest) -> is_digit c = false ->
  row_to_labeled_point line
  = Raise (ValueError (InvalidLiteral [c])).
Proof.
  intros -> Hc. unfold row_to_labeled_point, row_to_labeled_point_in.
  rewrite Hfields. simpl. unfold int. now rewrite Hc.
Qed.

(** A class field that starts with a digit: the three membership tests
    decide between the explicit [raise] and the record. *)
Lemma row_digit (c : char) (rest : str) :
  klass = (c :: rest) -> is_digit c = true ->
  row_to_labeled_point line
  = if negb (mem age ages) || negb (mem sex sexes)
       || negb (mem survived outcomes)
    then Raise (RuntimeError (lit "unknown value"))
    else Ok (mkLabeledPoint
               (if eqb survived (lit "yes") then 1 else 0)
               [ (digit_value c - 1)%Z;
                 (if eqb age (lit "adults") then 1 else 0)%Z;
                 (if eqb sex (lit "women") then 1 else 0)%Z ]).
Proof.
  intros -> Hc. unfold row_to_labeled_point, row_to_labeled_point_in.
  rewrite Hfields. simpl. unfold int. rewrite Hc. simpl.
  unfold ages, sexes, outcomes.
  destruct (negb (mem age [lit "adults"; lit "child"])
            || negb (mem sex [lit "man"; lit "women"])
            || negb (mem survived [lit "yes"; lit "no"])); reflexivity.
Qed.
End FiveFields.

Lemma stripped_five (line p k a s v : str) :
  split comma line = [p; k; a; s; v] ->
  stripped_fields line
  = [strip dquote p; strip dquote k; strip dquote a;
     strip dquote s; strip dquote v].
Proof. unfold stripped_fields. now intros ->. Qed.

Lemma invalid_categories_iff (age sex survived : str) :
  negb (mem age ages) || negb (mem sex sexes) || negb (mem survived outcomes)
  = true
  <-> (~ In age ages \/ ~ In sex sexes \/ ~ In survived outcomes).
Proof.
  rewrite !orb_true_iff, !not_mem_In. tauto.
Qed.

Lemma digit_value_bounds {U : UnicodeData} (c : char) :
  is_digit c = true -> (0 <= digit_value c <= 9)%Z.
Proof.
  unfold is_digit, digit_value.
  destruct (decimal c) as [v|] eqn:E; [|discriminate].
  intros _. exact (decimal_range c v E).
Qed.

(** What a returned record looks like: the line had five fields, a class
    digit and valid categories.  Feature 0 is the digit minus one, so it
    lies between -1 and 8; the digit itself is not compared with 1, 2, 3. *)
Lemma row_ok_inv {U : UnicodeData} (line : str) (r : LabeledPoint) :
  row_to_labeled_point line = Ok r ->
  exists p d rest age sex survived,
    stripped_fields line = [p; (d :: rest); age; sex; survived]
    /\ is_digit d = true
    /\ In age ages /\ In sex sexes /\ In survived outcomes
    /\ r = mkLabeledPoint
             (if eqb survived (lit "yes") then 1 else 0)
             [ (digit_value d - 1)%Z;
               (if eqb age (lit "adults") then 1 else 0)%Z;
               (if eqb sex (lit "women") then 1 else 0)%Z ].
Proof.
  intros Hr.
  destruct (Nat.lt_trichotomy (length (split comma line)) 5)
    as [Hlt | [Heq | Hgt]].
  - rewrite (row_too_few _ Hlt) in Hr. discriminate.
  - rewrite <- stripped_fields_length in Heq.
    destruct (stripped_fields line) as [|p [|k [|a [|s [|v [|x l]]]]]] eqn:E;
      try discriminate.
    destruct k as [|d rest].
    + rewrite (row_empty_class line _ _ _ _ _ E eq_refl) in Hr. discriminate.
    + destruct (is_digit d) eqn:Hd.
      * rewrite (row_digit line _ _ _ _ _ E d rest eq_refl Hd) in Hr.
        destruct (negb (mem a ages) || negb (mem s sexes)
                  || negb (mem v outcomes)) eqn:Ec; [discriminate|].
        apply orb_false_iff in Ec. destruct Ec as [Ec Hv].
        apply orb_false_iff in Ec. destruct Ec as [Ha Hs].
        apply negb_false_iff, mem_In in Ha, Hs, Hv.
        injection Hr as <-.
        exists p, d, rest, a, s, v. repeat split; assumption.
      * rewrite (row_no_digit line _ _ _ _ _ E d rest eq_refl Hd) in Hr.
        discriminate.
  - rewrite (row_too_many _ Hgt) in Hr. discriminate.
Qed.

Lemma feature0_bounds {U : UnicodeData} (line : str) (r : LabeledPoint) :
  row_to_labeled_point line = Ok r ->
  exists n f1 f2, features r = [n; f1; f2] /\ (-1 <= n <= 8)%Z.
Proof.
  intros Hr. apply row_ok_inv in Hr.
  destruct Hr as (p & d & rest & a & s & v & _ & Hd & _ & _ & _ & ->).
  pose proof (digit_value_bounds d Hd).
  do 3 eexists. split; [reflexivity | lia].
Qed.

(** The digits of ASCII are digits of every database, with their usual
    values; no other ASCII character is a digit. *)
Lemma is_digit_ascii {U : UnicodeData} (c : char) :
  (48 <= c <= 57)%N ->
  is_digit c = true /\ digit_value c = (Z.of_N c - 48)%Z.
Proof.
  intros Hc. unfold is_digit, digit_value.
  rewrite (decimal_ascii c) by lia.
  destruct (N.leb_spec 48 c); [|lia].
  destruct (N.leb_spec c 57); [|lia].
  now split.
Qed.

Lemma is_digit_ascii_other {U : UnicodeData} (c : char) :
  (c < 48 \/ 57 < c < 128)%N -> is_digit c = false.
Proof.
  intros Hc. unfold is_digit.
  rewrite (decimal_ascii c) by lia.
  destruct (N.leb_spec 48 c); destruct (N.leb_spec c 57);
    cbn; try reflexivity; lia.
Qed.

(** Digits of other scripts are read like '0' .. '9': a class field that
    begins with the Arabic-Indic digit three, U+0663, passes [int], and
    the line goes on to the membership tests. *)
Example arabic_indic_class_accepted :
  row_to_labeled_point (lit "7," ++ [1635%N] ++ lit "rd,adults,women,yes")
  = Ok (mkLabeledPoint 1 [2; 1; 1]%Z).
Proof. vm_compute. reflexivity. Qed.

Example arabic_indic_class_validated :
  row_to_labeled_point (lit "7," ++ [1635%N] ++ lit "rd,old,they,maybe")
  = Raise (RuntimeError (lit "unknown value")).
Proof. vm_compute. reflexivity. Qed.

(** ** The claims *)

(** C1. A line that splits into exactly five fields and whose class field,
    once stripped of its quotes, begins with a digit fails with a
    validation error exactly when the age field is not adults or child, or
    the sex field is not man or women, or the survival field is not yes or
    no; in that case the failure is the explicit RuntimeError, and in the
    other case the result is the complete record: the label from the
    survival field and the three features from the class digit, the age
    and the sex.  Nothing else is ever returned. *)
Theorem C1_validation_iff {U : UnicodeData}
  (line p k a s v : str) (d : char) (rest : str) :
  split comma line = [p; k; a; s; v] ->
  strip dquote k = (d :: rest) ->
  is_digit d = true ->
  let age := strip dquote a in
  let sex := strip dquote s in
  let survived := strip dquote v in
  let invalid :=
    ~ In age ages \/ ~ In sex sexes \/ ~ In survived outcomes in
  (fails_with ValidationError (row_to_labeled_point line) <-> invalid)
  /\ (invalid ->
      row_to_labeled_point line = Raise (RuntimeError (lit "unknown value")))
  /\ (~ invalid ->
      row_to_labeled_point line
      = Ok (mkLabeledPoint
              (if eqb survived (lit "yes") then 1 else 0)
              [ (digit_value d - 1)%Z;
                (if eqb age (lit "adults") then 1 else 0)%Z;
                (if eqb sex (lit "women") then 1 else 0)%Z ])).
Proof.
  intros Hsplit Hk Hd age sex survived invalid.
  pose proof (row_digit line _ _ age sex survived
                (stripped_five _ _ _ _ _ _ Hsplit) d rest Hk Hd) as Hrow.
  pose proof (invalid_categories_iff age sex survived) as Hiff.
  fold invalid in Hiff.
  destruct (negb (mem age ages) || negb (mem sex sexes)
            || negb (mem survived outcomes)) eqn:E.
  - assert (Hinv : invalid) by now apply Hiff.
    repeat split.
    + intros _. exact Hinv.
    + intros _. exists (RuntimeError (lit "unknown value")). now split.
    + intros _. exact Hrow.
    + intros Hn. contradiction.
  - assert (Hval : ~ invalid) by (intros H; apply Hiff in H; discriminate).
    repeat split.
    + intros [e [He _]]. rewrite Hrow in He. discriminate.
    + intros H. contradiction.
    + intros H. contradiction.
    + intros _. exact Hrow.
Qed.

Lemma C1_validation_iff_witness :
  row_to_labeled_point
    (join comma [lit "12"; quote (lit "2nd"); quote (lit "child");
                 quote (lit "man"); quote (lit "no")])
  = Ok (mkLabeledPoint 0 [1; 0; 0]%Z).
Proof.
  refine (proj2 (proj2
    (C1_validation_iff
       (join comma [lit "12"; quote (lit "2nd"); quote (lit "child");
                    quote (lit "man"); quote (lit "no")])
       (lit "12") (quote (lit "2nd")) (quote (lit "child"))
         (quote (lit "man")) (quote (lit "no"))
       50%N (lit "nd") _ _ _)) _).
  - reflexivity.
  - reflexivity.
  - reflexivity.
  - vm_compute. intros [H | [H | H]]; apply H; tauto.
Defined.

(** C2. A five-field line whose class field is 1st, age field adults, sex
    field women and survival field yes, each of them bare or wrapped in
    double quotes, yields label 1 and features [0, 1, 1], whatever the
    passenger field holds. *)
Theorem C2_first_adult_woman_survivor {U : UnicodeData} (line p k a s v : str) :
  split comma line = [p; k; a; s; v] ->
  optionally_quoted (lit "1st") k ->
  optionally_quoted (lit "adults") a ->
  optionally_quoted (lit "women") s ->
  optionally_quoted (lit "yes") v ->
  row_to_labeled_point line = Ok (mkLabeledPoint 1 [0; 1; 1]%Z).
Proof.
  intros Hsplit Hk Ha Hs Hv.
  assert (Ek : strip dquote k = lit "1st")
    by (destruct Hk as [-> | ->]; reflexivity).
  assert (Ea : strip dquote a = lit "adults")
    by (destruct Ha as [-> | ->]; reflexivity).
  assert (Es : strip dquote s = lit "women")
    by (destruct Hs as [-> | ->]; reflexivity).
  assert (Ev : strip dquote v = lit "yes")
    by (destruct Hv as [-> | ->]; reflexivity).
  destruct (is_digit_ascii 49%N) as [Hd Hv1]; [lia|].
  rewrite (row_digit line _ _ _ _ _ (stripped_five _ _ _ _ _ _ Hsplit)
             49%N (lit "st") Ek Hd).
  rewrite Ea, Es, Ev, Hv1. reflexivity.
Qed.

Lemma C2_first_adult_woman_survivor_witness :
  row_to_labeled_point
    (join comma [lit "7"; quote (lit "1st"); quote (lit "adults");
                 quote (lit "women"); quote (lit "yes")])
  = Ok (mkLabeledPoint 1 [0; 1; 1]%Z).
Proof.
  apply (C2_first_adult_woman_survivor _
           (lit "7") (quote (lit "1st")) (quote (lit "adults"))
             (quote (lit "women")) (quote (lit "yes")));
    solve [reflexivity | right; reflexivity].
Defined.

(** C3. A five-field line whose class field is 3rd, age field child, sex
    field man and survival field no (bare, or wrapped in double quotes)
    yields label 0 and features [2, 0, 0]. *)
Theorem C3_third_child_man_lost {U : UnicodeData} (line p k a s v : str) :
  split comma line = [p; k; a; s; v] ->
  optionally_quoted (lit "3rd") k ->
  optionally_quoted (lit "child") a ->
  optionally_quoted (lit "man") s ->
  optionally_quoted (lit "no") v ->
  row_to_labeled_point line = Ok (mkLabeledPoint 0 [2; 0; 0]%Z).
Proof.
  intros Hsplit Hk Ha Hs Hv.
  assert (Ek : strip dquote k = lit "3rd")
    by (destruct Hk as [-> | ->]; reflexivity).
  assert (Ea : strip dquote a = lit "child")
    by (destruct Ha as [-> | ->]; reflexivity).
  assert (Es : strip dquote s = lit "man")
    by (destruct Hs as [-> | ->]; reflexivity).
  assert (Ev : strip dquote v = lit "no")
    by (destruct Hv as [-> | ->]; reflexivity).
  destruct (is_digit_ascii 51%N) as [Hd Hv3]; [lia|].
  rewrite (row_digit line _ _ _ _ _ (stripped_five _ _ _ _ _ _ Hsplit)
             51%N (lit "rd") Ek Hd).
  rewrite Ea, Es, Ev, Hv3. reflexivity.
Qed.

Lemma C3_third_child_man_lost_witness :
  row_to_labeled_point (lit "1309,3rd,child,man,no")
  = Ok (mkLabeledPoint 0 [2; 0; 0]%Z).
Proof.
  apply (C3_third_child_man_lost _ (lit "1309") (lit "3rd") (lit "child")
    (lit "man") (lit "no"));
    solve [reflexivity | left; reflexivity].
Defined.

(** C4. Wrapping the content of any fields of a line in double quotes
    does not change the outcome: two lines whose comma-separated segments
    agree one by one, up to such a wrapping, give the same record or
    raise the same exception. *)
Theorem C4_quote_invariance {U : UnicodeData} (line line' : str) :
  Forall2 (fun f f' => optionally_quoted f f')
          (split comma line) (split comma line') ->
  row_to_labeled_point line' = row_to_labeled_point line.
Proof.
  intros H.
  assert (E : stripped_fields line' = stripped_fields line).
  { unfold stripped_fields.
    induction H as [|f f' l l' Hf _ IH]; simpl; [reflexivity|].
    rewrite IH. f_equal.
    destruct Hf as [-> | ->]; [reflexivity | apply strip_quote]. }
  unfold row_to_labeled_point, row_to_labeled_point_in. now rewrite E.
Qed.

Lemma C4_quote_invariance_witness :
  row_to_labeled_point
    (join comma [lit "7"; quote (lit "1st"); lit "adults";
                 quote (lit "women"); quote (lit "yes")])
  = row_to_labeled_point (lit "7,1st,adults,women,yes").
Proof.
  apply C4_quote_invariance.
  vm_compute.
  repeat first [ apply Forall2_cons | apply Forall2_nil ];
    solve [left; reflexivity | right; reflexivity].
Defined.

(** C5. A line that splits on commas into fewer or more than five
    segments raises the unpacking ValueError, a structural error: with
    fewer segments nothing is padded, with more nothing is dropped, and
    no record is returned. *)
Theorem C5_wrong_field_count {U : UnicodeData} (line : str) :
  length (split comma line) <> 5 ->
  fails_with StructuralError (row_to_labeled_point line)
  /\ (length (split comma line) < 5 ->
      row_to_labeled_point line
      = Raise (ValueError (NotEnoughValues 5 (length (split comma line)))))
  /\ (5 < length (split comma line) ->
      row_to_labeled_point line = Raise (ValueError (TooManyValues 5)))
  /\ (forall r, row_to_labeled_point line <> Ok r).
Proof.
  intros Hn.
  assert (Hcases : length (split comma line) < 5
                   \/ 5 < length (split comma line)) by lia.
  assert (Hfail : fails_with StructuralError (row_to_labeled_point line)).
  { destruct Hcases as [H | H].
    - eexists. split; [apply (row_too_few _ H) | reflexivity].
    - eexists. split; [apply (row_too_many _ H) | reflexivity]. }
  repeat split.
  - exact Hfail.
  - apply row_too_few.
  - apply row_too_many.
  - intros r Hr. destruct Hfail as [e [He _]]. congruence.
Qed.

Lemma C5_wrong_field_count_witness :
  fails_with StructuralError (row_to_labeled_point (lit "7,1st,adults,women")).
Proof.
  apply (C5_wrong_field_count (lit "7,1st,adults,women")).
  vm_compute. discriminate.
Defined.

(** C6. The class digit is not checked against 1, 2, 3: on the line
    7,"9th","adults","women","yes" the function returns a record whose
    feature 0 is 8, outside the values 0, 1, 2 that the docstring lists
    for the ticket class. *)
Theorem C6_class_index_unchecked :
  row_to_labeled_point
    (join comma [lit "7"; quote (lit "9th"); quote (lit "adults");
                 quote (lit "women"); quote (lit "yes")])
  = Ok (mkLabeledPoint 1 [8; 1; 1]%Z)
  /\ ~ In 8%Z [0; 1; 2]%Z.
Proof.
  split; [reflexivity|].
  simpl. intros [H | [H | [H | []]]]; discriminate.
Qed.

(** C7, as stated, fails: the line 7,xst,old,man,yes has five fields and
    an age field outside adults and child, but the class field has no
    leading digit, and the function raises the ValueError of [int], a
    structural error, before it looks at the age. *)
Lemma C7_counterexample :
  let line := lit "7,xst,old,man,yes" in
  split comma line = [lit "7"; lit "xst"; lit "old"; lit "man"; lit "yes"]
  /\ ~ In (strip dquote (lit "old")) ages
  /\ row_to_labeled_point line = Raise (ValueError (InvalidLiteral (lit "x")))
  /\ ~ fails_with ValidationError (row_to_labeled_point line).
Proof.
  repeat split.
  - simpl. intros [H | [H | []]]; discriminate.
  - intros [e [He Hk]]. vm_compute in He.
    injection He as <-. discriminate.
Qed.

(** C7, amended. A five-field line whose class field, once stripped,
    begins with a digit and whose age field is not adults or child raises
    the validation error, whatever the sex and survival fields hold. *)
Theorem C7_bad_age_rejected {U : UnicodeData}
  (line p k a s v : str) (d : char) (rest : str) :
  split comma line = [p; k; a; s; v] ->
  strip dquote k = (d :: rest) ->
  is_digit d = true ->
  ~ In (strip dquote a) ages ->
  row_to_labeled_point line = Raise (RuntimeError (lit "unknown value"))
  /\ fails_with ValidationError (row_to_labeled_point line).
Proof.
  intros Hsplit Hk Hd Ha.
  assert (Hrow : row_to_labeled_point line
                 = Raise (RuntimeError (lit "unknown value"))).
  { rewrite (row_digit line _ _ _ _ _ (stripped_five _ _ _ _ _ _ Hsplit)
               d rest Hk Hd).
    apply not_mem_In in Ha. now rewrite Ha. }
  split; [exact Hrow|].
  exists (RuntimeError (lit "unknown value")). now split.
Qed.

Lemma C7_bad_age_rejected_witness :
  row_to_labeled_point (lit "7,1st,old,man,yes")
  = Raise (RuntimeError (lit "unknown value")).
Proof.
  refine (proj1 (C7_bad_age_rejected (lit "7,1st,old,man,yes")
                   (lit "7") (lit "1st") (lit "old") (lit "man")
                     (lit "yes") 49%N (lit "st") _ _ _ _)).
  - reflexivity.
  - reflexivity.
  - reflexivity.
  - simpl. intros [H | [H | []]]; discriminate.
Defined.

(** C8. The class field is read before the categories are checked: a
    five-field line whose class field, once stripped, is empty or begins
    with a character that is not a decimal digit of any script fails with
    a structural error (IndexError, or the ValueError of [int]) and never
    with the validation error, whatever its age, sex and survival fields
    hold. *)
Theorem C8_class_checked_first {U : UnicodeData} (line p k a s v : str) :
  split comma line = [p; k; a; s; v] ->
  (forall d rest, strip dquote k = (d :: rest) -> is_digit d = false) ->
  fails_with StructuralError (row_to_labeled_point line)
  /\ ~ fails_with ValidationError (row_to_labeled_point line)
  /\ (strip dquote k = [] ->
      row_to_labeled_point line = Raise IndexError)
  /\ (forall d rest, strip dquote k = (d :: rest) ->
      row_to_labeled_point line
      = Raise (ValueError (InvalidLiteral [d]))).
Proof.
  intros Hsplit Hk.
  pose proof (stripped_five _ _ _ _ _ _ Hsplit) as Hf.
  assert (Hfail : fails_with StructuralError (row_to_labeled_point line)).
  { destruct (strip dquote k) as [|d rest] eqn:E.
    - exists IndexError. split; [|reflexivity].
      apply (row_empty_class line _ _ _ _ _ Hf eq_refl).
    - eexists. split;
        [ apply (row_no_digit line _ _ _ _ _ Hf d rest eq_refl
                   (Hk d rest eq_refl))
        | reflexivity ]. }
  repeat split.
  - exact Hfail.
  - intros [e' [He' Hk']]. destruct Hfail as [e [He Hke]].
    rewrite He in He'. injection He' as <-. congruence.
  - intros E. apply (row_empty_class line _ _ _ _ _ Hf E).
  - intros d rest E.
    apply (row_no_digit line _ _ _ _ _ Hf d rest E (Hk d rest E)).
Qed.

Lemma C8_class_checked_first_witness :
  fails_with StructuralError (row_to_labeled_point (lit "7,xst,old,they,maybe")).
Proof.
  refine (proj1 (C8_class_checked_first (lit "7,xst,old,they,maybe")
                   (lit "7") (lit "xst") (lit "old") (lit "they")
                     (lit "maybe") _ _)).
  - reflexivity.
  - intros d rest E. vm_compute in E. injection E as <- _. reflexivity.
Defined.

(** C10, as stated, fails: the line "1,1st",adults,women,yes has a quoted
    field whose content contains a comma, yet it has only four fields, so
    the split at that comma gives exactly five segments and the function
    returns a record. *)
Lemma C10_counterexample :
  let line := join comma [quote (lit "1,1st"); lit "adults"; lit "women";
                          lit "yes"] in
  split comma line
  = [ dquote :: lit "1"; lit "1st" ++ [dquote];
      lit "adults"; lit "women"; lit "yes" ]
  /\ length (split comma line) = 5
  /\ row_to_labeled_point line = Ok (mkLabeledPoint 1 [0; 1; 1]%Z).
Proof. repeat split. Qed.

(** C10, amended. The line is split on every comma before the quotes are
    looked at: when a line is made of five fields (or more) joined by
    commas and one of them is a quoted field whose content contains a
    comma, the split gives more than five segments and the function
    raises the unpacking ValueError, a structural error. *)
Theorem C10_quotes_do_not_protect_commas {U : UnicodeData}
  (fields : list str) (before after : str) :
  5 <= length fields ->
  In (quote (before ++ comma :: after)) fields ->
  5 < length (split comma (join comma fields))
  /\ row_to_labeled_point (join comma fields)
     = Raise (ValueError (TooManyValues 5))
  /\ fails_with StructuralError (row_to_labeled_point (join comma fields)).
Proof.
  intros Hlen Hin.
  assert (Hcount : 1 <= count comma (quote (before ++ comma :: after))).
  { unfold quote. cbn [count]. rewrite !count_app. cbn [count].
    rewrite N.eqb_refl. lia. }
  pose proof (split_join_length comma fields _ Hin) as Hsplit.
  assert (Hmany : 5 < length (split comma (join comma fields))) by lia.
  split; [exact Hmany|]. split.
  - apply (row_too_many _ Hmany).
  - eexists. split; [apply (row_too_many _ Hmany) | reflexivity].
Qed.

Lemma C10_quotes_do_not_protect_commas_witness :
  row_to_labeled_point
    (join comma [lit "7"; quote (lit "1st,upper deck"); lit "adults";
                 lit "women"; lit "yes"])
  = Raise (ValueError (TooManyValues 5)).
Proof.
  refine (proj1 (proj2
    (C10_quotes_do_not_protect_commas
       [lit "7"; quote (lit "1st,upper deck"); lit "adults"; lit "women";
        lit "yes"]
       (lit "1st") (lit "upper deck") _ _))).
  - simpl. lia.
  - right. left. reflexivity.
Defined.

(** ** Further facts about [split], [join] and [strip] *)

Section SplitJoinFacts.
Variable sep : char.

Lemma split_not_nil (s : str) : split sep s <> [].
Proof.
  intros E. pose proof (split_length sep s) as H. rewrite E in H.
  discriminate.
Qed.

Lemma join_cons_char (c : char) (seg : str) (segs : list str) :
  join sep ((c :: seg) :: segs) = c :: join sep (seg :: segs).
Proof. destruct segs; reflexivity. Qed.

Lemma join_split (s : str) : join sep (split sep s) = s.
Proof.
  induction s as [|a s IH]; [reflexivity|].
  cbn [split]. destruct (N.eqb a sep) eqn:E.
  - apply N.eqb_eq in E. subst a.
    destruct (split sep s) as [|seg segs] eqn:Es.
    + now apply split_not_nil in Es.
    + change (join sep ([] :: seg :: segs))
        with (sep :: join sep (seg :: segs)).
      now rewrite IH.
  - destruct (split sep s) as [|seg segs] eqn:Es.
    + now apply split_not_nil in Es.
    + rewrite join_cons_char. now rewrite IH.
Qed.

Lemma split_free (x : str) : free_of sep x -> split sep x = [x].
Proof.
  unfold free_of. induction x as [|a x IH]; [reflexivity|].
  cbn [count split]. destruct (N.eqb a sep); [discriminate|].
  intros H. now rewrite (IH H).
Qed.

Lemma split_free_app (x t : str) :
  free_of sep x -> split sep (x ++ sep :: t) = x :: split sep t.
Proof.
  unfold free_of. induction x as [|a x IH].
  - intros _. cbn. now rewrite N.eqb_refl.
  - cbn [count]. intros H.
    change ((a :: x) ++ sep :: t) with (a :: (x ++ sep :: t)).
    cbn [split]. destruct (N.eqb a sep); [discriminate|].
    now rewrite (IH H).
Qed.

Lemma split_join (l : list str) :
  l <> [] -> Forall (free_of sep) l -> split sep (join sep l) = l.
Proof.
  induction l as [|x rest IH]; [congruence|].
  intros _ Hall. inversion Hall as [|? ? Hx Hrest]; subst.
  destruct rest as [|y rest'].
  - now apply split_free.
  - change (join sep (x :: y :: rest'))
      with (x ++ sep :: join sep (y :: rest')).
    rewrite (split_free_app _ _ Hx). f_equal.
    apply IH; [discriminate | exact Hrest].
Qed.

Lemma split_segments_free (s : str) : Forall (free_of sep) (split sep s).
Proof.
  induction s as [|a s IH]; [repeat constructor|].
  cbn [split]. destruct (N.eqb a sep) eqn:E.
  - constructor; [reflexivity | exact IH].
  - destruct (split sep s) as [|seg segs].
    + constructor; [|constructor]. unfold free_of. cbn. now rewrite E.
    + inversion IH as [|? ? Hseg Hsegs]; subst.
      constructor; [|exact Hsegs]. unfold free_of in *. cbn. now rewrite E.
Qed.
End SplitJoinFacts.

Lemma append_empty_r (s : str) : s ++ [] = s.
Proof. induction s as [|a s IH]; cbn; [reflexivity | now rewrite IH]. Qed.

Lemma append_assoc (s t u : str) : (s ++ t) ++ u = s ++ (t ++ u).
Proof. induction s as [|a s IH]; cbn; [reflexivity | now rewrite IH]. Qed.

Section StripEnds.
Variable q : char.

Lemma lstrip_decompose (s : str) :
  exists n, s = replicate n q ++ lstrip q s.
Proof.
  induction s as [|a s [n IH]]; [now exists 0|].
  cbn [lstrip]. destruct (N.eqb a q) eqn:E.
  - apply N.eqb_eq in E. subst a. exists (S n). cbn. now rewrite <- IH.
  - now exists 0.
Qed.

Lemma rstrip_decompose (s : str) :
  exists n, s = rstrip q s ++ replicate n q.
Proof.
  induction s as [|a s [n IH]]; [now exists 0|].
  cbn [rstrip]. destruct (rstrip q s) as [|b r].
  - destruct (N.eqb a q) eqn:E.
    + apply N.eqb_eq in E. subst a. exists (S n). cbn in *. now rewrite IH.
    + exists n. cbn in *. now rewrite IH.
  - exists n. cbn in *. now rewrite <- IH.
Qed.

Lemma lstrip_first (s : str) : first_char (lstrip q s) <> Some q.
Proof.
  induction s as [|a s IH]; cbn; [discriminate|].
  destruct (N.eqb a q) eqn:E; [exact IH|].
  cbn. intros H. injection H as ->. now rewrite N.eqb_refl in E.
Qed.

Lemma rstrip_first (s : str) :
  first_char s <> Some q -> first_char (rstrip q s) <> Some q.
Proof.
  destruct s as [|a s]; cbn; [discriminate|].
  intros Ha. destruct (rstrip q s); [|exact Ha].
  destruct (N.eqb a q); [discriminate | exact Ha].
Qed.

Lemma rstrip_last (s : str) : last_char (rstrip q s) <> Some q.
Proof.
  induction s as [|a s IH]; cbn [rstrip]; [discriminate|].
  destruct (rstrip q s) as [|b r].
  - destruct (N.eqb a q) eqn:E; [discriminate|].
    cbn. intros H. injection H as ->. now rewrite N.eqb_refl in E.
  - exact IH.
Qed.

Lemma replicate_add (n k : nat) :
  replicate (n + k) q = replicate n q ++ replicate k q.
Proof. induction n as [|n IH]; cbn; [reflexivity | now rewrite IH]. Qed.

Lemma lstrip_replicate (n : nat) (s : str) :
  lstrip q (replicate n q ++ s) = lstrip q s.
Proof.
  induction n as [|n IH]; [reflexivity|].
  cbn. now rewrite N.eqb_refl.
Qed.

Lemma rstrip_replicate (n : nat) (s : str) :
  rstrip q (s ++ replicate n q) = rstrip q s.
Proof.
  revert s. induction n as [|n IH]; intros s.
  - cbn. now rewrite append_empty_r.
  - cbn [replicate].
    change (q :: replicate n q)
      with ([q] ++ replicate n q).
    rewrite <- append_assoc, IH. apply rstrip_snoc.
Qed.

Lemma lstrip_app_kept (s t : str) :
  lstrip q s <> [] -> lstrip q (s ++ t) = lstrip q s ++ t.
Proof.
  induction s as [|a s IH]; cbn; [congruence|].
  destruct (N.eqb a q); [exact IH | reflexivity].
Qed.

Lemma strip_empty_iff (s : str) :
  strip q s = [] <-> exists n, s = replicate n q.
Proof.
  split.
  - intros E. destruct (lstrip_decompose s) as [n Hn].
    destruct (rstrip_decompose (lstrip q s)) as [k Hk].
    unfold strip in E. rewrite E in Hk. cbn in Hk.
    exists (n + k). now rewrite replicate_add, <- Hk.
  - intros [n ->]. unfold strip.
    rewrite <- (append_empty_r (replicate n q)).
    now rewrite lstrip_replicate.
Qed.
End StripEnds.

(** ** Every outcome of the function, by the shape of the line *)

Lemma valid_categories_false (age sex survived : str) :
  In age ages -> In sex sexes -> In survived outcomes ->
  negb (mem age ages) || negb (mem sex sexes) || negb (mem survived outcomes)
  = false.
Proof.
  intros Ha Hs Hv. apply mem_In in Ha, Hs, Hv. now rewrite Ha, Hs, Hv.
Qed.

Lemma row_cases {U : UnicodeData} (line : str) :
  (length (split comma line) < 5
   /\ row_to_labeled_point line
      = Raise (ValueError (NotEnoughValues 5 (length (split comma line)))))
  \/ (5 < length (split comma line)
      /\ row_to_labeled_point line = Raise (ValueError (TooManyValues 5)))
  \/ (exists p k a s v,
        split comma line = [p; k; a; s; v]
        /\ ((strip dquote k = []
             /\ row_to_labeled_point line = Raise IndexError)
            \/ (exists d rest,
                  strip dquote k = (d :: rest)
                  /\ ((is_digit d = false
                       /\ row_to_labeled_point line
                          = Raise (ValueError
                                     (InvalidLiteral [d])))
                      \/ (is_digit d = true
                          /\ (~ In (strip dquote a) ages
                              \/ ~ In (strip dquote s) sexes
                              \/ ~ In (strip dquote v) outcomes)
                          /\ row_to_labeled_point line
                             = Raise (RuntimeError (lit "unknown value")))
                      \/ (is_digit d = true
                          /\ In (strip dquote a) ages
                          /\ In (strip dquote s) sexes
                          /\ In (strip dquote v) outcomes
                          /\ row_to_labeled_point line
                             = Ok (mkLabeledPoint
                                     (if eqb (strip dquote v) (lit "yes")
                                      then 1 else 0)
                                     [ (digit_value d - 1)%Z;
                                       (if eqb (strip dquote a) (lit "adults")
                                        then 1 else 0)%Z;
                                       (if eqb (strip dquote s) (lit "women")
                                        then 1 else 0)%Z ])))))).
Proof.
  destruct (Nat.lt_trichotomy (length (split comma line)) 5)
    as [Hlt | [Heq | Hgt]].
  - left. split; [exact Hlt | now apply row_too_few].
  - right. right.
    destruct (split comma line) as [|p [|k [|a [|s [|v [|x l]]]]]] eqn:E;
      try discriminate.
    exists p, k, a, s, v. split; [reflexivity|].
    pose proof (stripped_five _ _ _ _ _ _ E) as Hf.
    destruct (strip dquote k) as [|d rest] eqn:Ek.
    + left. split; [reflexivity|].
      apply (row_empty_class line _ _ _ _ _ Hf eq_refl).
    + right. exists d, rest. split; [reflexivity|].
      destruct (is_digit d) eqn:Hd.
      * right.
        pose proof (row_digit line _ _ _ _ _ Hf d rest eq_refl Hd) as Hrow.
        pose proof (invalid_categories_iff (strip dquote a) (strip dquote s)
                      (strip dquote v)) as Hiff.
        destruct (negb (mem (strip dquote a) ages)
                  || negb (mem (strip dquote s) sexes)
                  || negb (mem (strip dquote v) outcomes)) eqn:Ec.
        -- left. split; [reflexivity|]. split; [now apply Hiff | exact Hrow].
        -- right. split; [reflexivity|].
           apply orb_false_iff in Ec. destruct Ec as [Ec Hv].
           apply orb_false_iff in Ec. destruct Ec as [Ha Hs].
           apply negb_false_iff, mem_In in Ha, Hs, Hv.
           repeat split; assumption.
      * left. split; [reflexivity|].
        apply (row_no_digit line _ _ _ _ _ Hf d rest eq_refl Hd).
  - right. left. split; [exact Hgt | now apply row_too_many].
Qed.

Ltac row_by_cases line H :=
  destruct (row_cases line)
    as [[? Hrow] | [[? Hrow] | (p & k & a & s & v & Hsplit &
          [[Hk Hrow] | (d & rest & Hk &
             [[Hd Hrow] | [(Hd & Hbad & Hrow)
                          | (Hd & Ha & Hs & Hv & Hrow)]])])]];
  rewrite Hrow in H; try discriminate H.

(** ** Further properties of [row_to_labeled_point] *)

(** X1. The function returns a record exactly when the line has five
    comma-separated segments, the class segment stripped of its quotes
    begins with a decimal digit ('0' .. '9' or a digit of another script)
    and the stripped age, sex and survival segments are in their lists;
    the record is then the one computed from the value of the digit and
    the three categories. *)
Theorem X1_record_iff {U : UnicodeData} (line : str) (r : LabeledPoint) :
  row_to_labeled_point line = Ok r
  <-> exists p k a s v d rest,
        split comma line = [p; k; a; s; v]
        /\ strip dquote k = (d :: rest)
        /\ is_digit d = true
        /\ In (strip dquote a) ages
        /\ In (strip dquote s) sexes
        /\ In (strip dquote v) outcomes
        /\ r = mkLabeledPoint
                 (if eqb (strip dquote v) (lit "yes") then 1 else 0)
                 [ (digit_value d - 1)%Z;
                   (if eqb (strip dquote a) (lit "adults") then 1 else 0)%Z;
                   (if eqb (strip dquote s) (lit "women") then 1 else 0)%Z ].
Proof.
  split.
  - intros H. row_by_cases line H.
    injection H as <-. exists p, k, a, s, v, d, rest.
    repeat split; assumption.
  - intros (p & k & a & s & v & d & rest & Hsplit & Hk & Hd
            & Ha & Hs & Hv & ->).
    rewrite (row_digit line _ _ _ _ _ (stripped_five _ _ _ _ _ _ Hsplit)
               d rest Hk Hd).
    now rewrite (valid_categories_false _ _ _ Ha Hs Hv).
Qed.

(** X2. The explicit RuntimeError is raised exactly when the line has
    five segments, the stripped class segment begins with a decimal digit
    ('0' .. '9' or a digit of another script), and one of the stripped
    age, sex and survival segments is outside its list: a validation error
    therefore tells that the field count and the class digit were
    accepted. *)
Theorem X2_runtime_error_iff {U : UnicodeData} (line : str) (msg : str) :
  row_to_labeled_point line = Raise (RuntimeError msg)
  <-> msg = lit "unknown value"
      /\ exists p k a s v d rest,
           split comma line = [p; k; a; s; v]
           /\ strip dquote k = (d :: rest)
           /\ is_digit d = true
           /\ (~ In (strip dquote a) ages
               \/ ~ In (strip dquote s) sexes
               \/ ~ In (strip dquote v) outcomes).
Proof.
  split.
  - intros H. row_by_cases line H.
    injection H as <-. split; [reflexivity|].
    exists p, k, a, s, v, d, rest. repeat split; assumption.
  - intros (-> & p & k & a & s & v & d & rest & Hsplit & Hk & Hd & Hbad).
    rewrite (row_digit line _ _ _ _ _ (stripped_five _ _ _ _ _ _ Hsplit)
               d rest Hk Hd).
    apply invalid_categories_iff in Hbad. now rewrite Hbad.
Qed.

(** X3. IndexError is raised exactly when the line has five segments and
    the class segment is empty or made of double quotes only. *)
Theorem X3_index_error_iff {U : UnicodeData} (line : str) :
  row_to_labeled_point line = Raise IndexError
  <-> exists p k a s v n,
        split comma line = [p; k; a; s; v] /\ k = replicate n dquote.
Proof.
  split.
  - intros H. row_by_cases line H.
    apply strip_empty_iff in Hk. destruct Hk as [n Hn].
    now exists p, k, a, s, v, n.
  - intros (p & k & a & s & v & n & Hsplit & Hn).
    apply (row_empty_class line _ _ _ _ _ (stripped_five _ _ _ _ _ _ Hsplit)).
    apply strip_empty_iff. now exists n.
Qed.

(** X4. The ValueError of [int] is raised exactly when the line has five
    segments and the stripped class segment begins with a character that
    is not a decimal digit of any script; the literal it reports is that
    one character. *)
Theorem X4_invalid_literal_iff {U : UnicodeData} (line literal : str) :
  row_to_labeled_point line = Raise (ValueError (InvalidLiteral literal))
  <-> exists p k a s v d rest,
        split comma line = [p; k; a; s; v]
        /\ strip dquote k = (d :: rest)
        /\ is_digit d = false
        /\ literal = [d].
Proof.
  split.
  - intros H. row_by_cases line H.
    injection H as <-. exists p, k, a, s, v, d, rest. repeat split; assumption.
  - intros (p & k & a & s & v & d & rest & Hsplit & Hk & Hd & ->).
    apply (row_no_digit line _ _ _ _ _ (stripped_five _ _ _ _ _ _ Hsplit)
             d rest Hk Hd).
Qed.

(** X5. The unpacking is decided by the number of commas alone: with
    fewer than four commas the function raises the not-enough-values
    error, which reports one segment more than there are commas; with more
    than four it raises the too-many-values error; and it raises neither
    when the line holds exactly four commas. *)
Theorem X5_unpacking_by_comma_count {U : UnicodeData} (line : str) :
  (forall got,
      row_to_labeled_point line = Raise (ValueError (NotEnoughValues 5 got))
      <-> count comma line < 4 /\ got = S (count comma line))
  /\ (row_to_labeled_point line = Raise (ValueError (TooManyValues 5))
      <-> 4 < count comma line).
Proof.
  pose proof (split_length comma line) as Hlen.
  split; [intros got|]; split.
  - intros H. row_by_cases line H.
    injection H as <-. lia.
  - intros [Hc ->]. rewrite <- Hlen. apply row_too_few. lia.
  - intros H. row_by_cases line H. lia.
  - intros Hc. apply row_too_many. lia.
Qed.

(** A line with an ASCII digit for its class field, read by any
    database. *)
Lemma row_ascii_class {U : UnicodeData} (c : char) :
  (48 <= c <= 57)%N ->
  row_to_labeled_point
    (join comma [lit "7"; c :: lit "th"; lit "adults"; lit "man"; lit "yes"])
  = Ok (mkLabeledPoint 1 [Z.of_N c - 49; 1; 0]%Z).
Proof.
  intros Hc.
  assert (Hcomma : N.eqb c comma = false)
    by (apply N.eqb_neq; intros E; unfold comma in E; subst c; lia).
  assert (Hquote : N.eqb c dquote = false)
    by (apply N.eqb_neq; intros E; unfold dquote in E; subst c; lia).
  assert (Hf : stripped_fields
                 (join comma [lit "7"; c :: lit "th"; lit "adults";
                              lit "man"; lit "yes"])
               = [lit "7"; c :: lit "th"; lit "adults"; lit "man";
                  lit "yes"]).
  { unfold stripped_fields. rewrite split_join.
    - cbn [map]. repeat f_equal.
      unfold strip. cbn [lstrip]. rewrite Hquote.
      cbn. reflexivity.
    - discriminate.
    - repeat constructor. unfold free_of. cbn [count]. now rewrite Hcomma. }
  destruct (is_digit_ascii c Hc) as [Hd Hv].
  rewrite (row_digit _ _ _ _ _ _ Hf c (lit "th") eq_refl Hd), Hv.
  replace (Z.of_N c - 48 - 1)%Z with (Z.of_N c - 49)%Z by lia.
  reflexivity.
Qed.

Lemma indicator_inj (one other x y : str) :
  one <> other ->
  In x [one; other] -> In y [one; other] ->
  (if eqb x one then 1 else 0)%Z
  = (if eqb y one then 1 else 0)%Z ->
  x = y.
Proof.
  intros Hne Hx Hy.
  assert (Eo : eqb other one = false)
    by (apply str_eqb_neq; congruence).
  destruct Hx as [<- | [<- | []]]; destruct Hy as [<- | [<- | []]];
    rewrite ?str_eqb_refl, ?Eo; intros H;
    first [reflexivity | discriminate H].
Qed.

(** X6. The values feature 0 takes over all the lines the function
    accepts are exactly the integers from -1 to 8: the class digit minus
    one, for any digit from 0 to 9. *)
Theorem X6_feature0_values {U : UnicodeData} (n : Z) :
  (exists line r,
      row_to_labeled_point line = Ok r /\ nth_error (features r) 0 = Some n)
  <-> (-1 <= n <= 8)%Z.
Proof.
  split.
  - intros (line & r & Hr & Hn).
    destruct (feature0_bounds line r Hr) as (n' & f1 & f2 & Hf & Hb).
    rewrite Hf in Hn. injection Hn as <-. exact Hb.
  - intros Hb.
    exists (join comma
              [ lit "7"; Z.to_N (n + 49) :: lit "th";
                lit "adults"; lit "man"; lit "yes" ]).
    exists (mkLabeledPoint 1 [n; 1; 0]%Z).
    split; [|reflexivity].
    rewrite row_ascii_class by lia.
    repeat f_equal. lia.
Qed.

(** X7. A returned record has label 0 or 1 and exactly three features;
    the age and sex features are 0 or 1. *)
Theorem X7_record_shape {U : UnicodeData} (line : str) (r : LabeledPoint) :
  row_to_labeled_point line = Ok r ->
  (label r = 0 \/ label r = 1)%Z
  /\ exists klass age sex,
       features r = [klass; age; sex]
       /\ (age = 0 \/ age = 1)%Z /\ (sex = 0 \/ sex = 1)%Z.
Proof.
  intros Hr. apply row_ok_inv in Hr.
  destruct Hr as (p & d & rest & a & s & v & _ & _ & _ & _ & _ & ->).
  cbn [label features]. split.
  - destruct (eqb v (lit "yes")); [now right | now left].
  - do 3 eexists. split; [reflexivity|]. split.
    + destruct (eqb a (lit "adults")); [now right | now left].
    + destruct (eqb s (lit "women")); [now right | now left].
Qed.

Lemma X7_record_shape_witness :
  (label (mkLabeledPoint 0 [2; 0; 0]%Z) = 0
   \/ label (mkLabeledPoint 0 [2; 0; 0]%Z) = 1)%Z
  /\ exists klass age sex,
       features (mkLabeledPoint 0 [2; 0; 0]%Z) = [klass; age; sex]
       /\ (age = 0 \/ age = 1)%Z /\ (sex = 0 \/ sex = 1)%Z.
Proof.
  apply (X7_record_shape (lit "1309,3rd,child,man,no")). reflexivity.
Defined.

(** X8. The passenger field is never used: two lines that differ in
    their first segment only have the same outcome, record or exception. *)
Theorem X8_passenger_id_ignored {U : UnicodeData}
  (line line' p p' : str) (rest : list str) :
  split comma line = p :: rest ->
  split comma line' = p' :: rest ->
  row_to_labeled_point line' = row_to_labeled_point line.
Proof.
  intros H H'.
  unfold row_to_labeled_point, row_to_labeled_point_in, stripped_fields.
  rewrite H, H'.
  destruct rest as [|k [|a [|s [|v [|x l]]]]]; reflexivity.
Qed.

Lemma X8_passenger_id_ignored_witness :
  row_to_labeled_point (lit "Smith,1st,adults,women,yes")
  = row_to_labeled_point (lit "7,1st,adults,women,yes").
Proof.
  apply (X8_passenger_id_ignored _ _ (lit "7") (lit "Smith")
           [lit "1st"; lit "adults"; lit "women"; lit "yes"]); reflexivity.
Defined.

(** X9. Of the class field only the first character after the quotes is
    read: two five-segment lines that agree on the other segments and
    whose stripped class segments begin with the same character have the
    same outcome. *)
Theorem X9_class_first_character_only {U : UnicodeData}
  (line line' p k k' a s v : str) (d : char) (rest rest' : str) :
  split comma line = [p; k; a; s; v] ->
  split comma line' = [p; k'; a; s; v] ->
  strip dquote k = (d :: rest) ->
  strip dquote k' = (d :: rest') ->
  row_to_labeled_point line' = row_to_labeled_point line.
Proof.
  intros H H' Hk Hk'.
  pose proof (stripped_five _ _ _ _ _ _ H) as Hf.
  pose proof (stripped_five _ _ _ _ _ _ H') as Hf'.
  destruct (is_digit d) eqn:Hd.
  - rewrite (row_digit line _ _ _ _ _ Hf d rest Hk Hd).
    now rewrite (row_digit line' _ _ _ _ _ Hf' d rest' Hk' Hd).
  - rewrite (row_no_digit line _ _ _ _ _ Hf d rest Hk Hd).
    now rewrite (row_no_digit line' _ _ _ _ _ Hf' d rest' Hk' Hd).
Qed.

Lemma X9_class_first_character_only_witness :
  row_to_labeled_point (lit "7,1,adults,women,yes")
  = row_to_labeled_point (lit "7,1st,adults,women,yes").
Proof.
  apply (X9_class_first_character_only _ _
           (lit "7") (lit "1st") (lit "1") (lit "adults") (lit "women")
             (lit "yes") 49%N (lit "st") []);
    reflexivity.
Defined.

(** X10. The record determines what was read, up to the script of the
    class digit: two lines that give the same record have class fields
    that begin with digits of the same decimal value, and the same
    stripped age, sex and survival fields. *)
Theorem X10_record_determines_fields {U : UnicodeData}
  (line line' : str) (r : LabeledPoint) :
  row_to_labeled_point line = Ok r ->
  row_to_labeled_point line' = Ok r ->
  exists p p' d d' value rest rest' age sex survived,
    stripped_fields line = [p; d :: rest; age; sex; survived]
    /\ stripped_fields line' = [p'; d' :: rest'; age; sex; survived]
    /\ decimal d = Some value /\ decimal d' = Some value.
Proof.
  intros H H'.
  apply row_ok_inv in H.
  destruct H as (p & d & rest & a & s & v & Hf & Hd & Ha & Hs & Hv & Er).
  apply row_ok_inv in H'.
  destruct H' as (p' & d' & rest' & a' & s' & v' & Hf' & Hd' & Ha' & Hs'
                  & Hv' & Er').
  rewrite Er in Er'. injection Er' as Ev Ed Ea Es.
  unfold is_digit in Hd, Hd'. unfold digit_value in Ed.
  destruct (decimal d) as [n|] eqn:En; [|discriminate].
  destruct (decimal d') as [n'|] eqn:En'; [|discriminate].
  assert (n = n') by lia.
  assert (a = a')
    by (apply (indicator_inj (lit "adults") (lit "child"));
        [discriminate | assumption .. ]).
  assert (s = s').
  { apply (indicator_inj (lit "women") (lit "man")); try assumption;
      [discriminate | |].
    - destruct Hs as [<- | [<- | []]]; simpl; tauto.
    - destruct Hs' as [<- | [<- | []]]; simpl; tauto. }
  assert (v = v')
    by (apply (indicator_inj (lit "yes") (lit "no"));
        [discriminate | assumption .. ]).
  subst. exists p, p', d, d', n', rest, rest', a', s', v'.
  repeat split; assumption.
Qed.

Lemma X10_record_determines_fields_witness :
  exists p p' d d' value rest rest' age sex survived,
    stripped_fields (lit "7,3rd,child,man,no")
    = [p; d :: rest; age; sex; survived]
    /\ stripped_fields (lit "8," ++ [1635%N] ++ lit "rd,child,man,no")
       = [p'; d' :: rest'; age; sex; survived]
    /\ decimal d = Some value /\ decimal d' = Some value.
Proof.
  apply (X10_record_determines_fields _ _ (mkLabeledPoint 0 [2; 0; 0]%Z));
    vm_compute; reflexivity.
Defined.

(** ** Properties of the string operations the function relies on *)

Section StripFixed.
Variable q : char.

Lemma lstrip_id (s : str) : first_char s <> Some q -> lstrip q s = s.
Proof.
  destruct s as [|a s]; cbn; [reflexivity|].
  destruct (N.eqb a q) eqn:E; [|reflexivity].
  apply N.eqb_eq in E. subst a. congruence.
Qed.

Lemma rstrip_id (s : str) : last_char s <> Some q -> rstrip q s = s.
Proof.
  induction s as [|a s IH]; [reflexivity|].
  cbn [rstrip last_char]. destruct s as [|b t].
  - cbn. destruct (N.eqb a q) eqn:E; [|reflexivity].
    apply N.eqb_eq in E. subst a. congruence.
  - intros H. now rewrite (IH H).
Qed.

Lemma strip_surrounded (n k : nat) (s : str) :
  strip q (replicate n q ++ s ++ replicate k q) = strip q s.
Proof.
  unfold strip. rewrite lstrip_replicate.
  destruct (lstrip q s) as [|a t] eqn:E.
  - destruct (lstrip_decompose q s) as [j Hj]. rewrite E in Hj.
    rewrite append_empty_r in Hj. subst s.
    rewrite <- replicate_add.
    rewrite <- (append_empty_r (replicate (j + k) q)).
    now rewrite lstrip_replicate.
  - rewrite lstrip_app_kept by (rewrite E; discriminate).
    rewrite E. apply rstrip_replicate.
Qed.
End StripFixed.

(** X11. Joining the segments of a split with the separator gives the
    string back: the split loses nothing of the line. *)
Theorem X11_join_split (sep : char) (s : str) :
  join sep (split sep s) = s.
Proof. apply join_split. Qed.

(** X12. Splitting the join of a non-empty list of separator-free fields
    gives the fields back. *)
Theorem X12_split_join (sep : char) (fields : list str) :
  fields <> [] ->
  Forall (free_of sep) fields ->
  split sep (join sep fields) = fields.
Proof. apply split_join. Qed.

Lemma X12_split_join_witness :
  split comma (join comma [lit "7"; quote (lit "1st"); lit "adults";
                           lit "women"; lit "yes"])
  = [lit "7"; quote (lit "1st"); lit "adults"; lit "women"; lit "yes"].
Proof.
  apply (X12_split_join comma
           [lit "7"; quote (lit "1st"); lit "adults"; lit "women"; lit "yes"]).
  - discriminate.
  - repeat first [ apply Forall_cons | apply Forall_nil ]; reflexivity.
Defined.

(** X13. A split returns one segment more than the string has
    separators, so at least one, and no segment contains the separator. *)
Theorem X13_split_shape (sep : char) (s : str) :
  length (split sep s) = S (count sep s)
  /\ split sep s <> []
  /\ Forall (free_of sep) (split sep s).
Proof.
  split; [apply split_length|].
  split; [apply split_not_nil | apply split_segments_free].
Qed.

(** X14. Stripping removes a run of the character at each end and
    nothing else: the string is the stripped string between two such
    runs, and the stripped string neither begins nor ends with the
    character. *)
Theorem X14_strip_ends (q : char) (s : str) :
  (exists n k, s = replicate n q ++ strip q s ++ replicate k q)
  /\ first_char (strip q s) <> Some q
  /\ last_char (strip q s) <> Some q.
Proof.
  split; [|split].
  - destruct (lstrip_decompose q s) as [n Hn].
    destruct (rstrip_decompose q (lstrip q s)) as [k Hk].
    exists n, k. unfold strip. now rewrite <- Hk.
  - apply rstrip_first, lstrip_first.
  - apply rstrip_last.
Qed.

(** X15. A string is left as it is by the stripping exactly when it
    neither begins nor ends with the character; occurrences inside the
    string are kept. *)
Theorem X15_strip_fixed_iff (q : char) (s : str) :
  strip q s = s <-> (first_char s <> Some q /\ last_char s <> Some q).
Proof.
  split.
  - intros E. rewrite <- E. split.
    + apply rstrip_first, lstrip_first.
    + apply rstrip_last.
  - intros [Hf Hl]. unfold strip. rewrite (lstrip_id q s Hf).
    apply (rstrip_id q s Hl).
Qed.

(** X16. Any number of double quotes at either end of any field, also
    unbalanced, leaves the outcome unchanged. *)
Theorem X16_surrounding_quotes_ignored {U : UnicodeData} (line line' : str) :
  Forall2 (fun f f' => exists n k,
             f' = replicate n dquote ++ f ++ replicate k dquote)
          (split comma line) (split comma line') ->
  row_to_labeled_point line' = row_to_labeled_point line.
Proof.
  intros H.
  assert (E : stripped_fields line' = stripped_fields line).
  { unfold stripped_fields.
    induction H as [|f f' l l' (n & k & ->) _ IH]; simpl; [reflexivity|].
    rewrite IH. f_equal. apply strip_surrounded. }
  unfold row_to_labeled_point, row_to_labeled_point_in. now rewrite E.
Qed.

Lemma X16_surrounding_quotes_ignored_witness :
  row_to_labeled_point
    (join comma [lit "7"; dquote :: dquote :: lit "1st"; lit "adults";
                 lit "women" ++ [dquote]; lit "yes"])
  = row_to_labeled_point (lit "7,1st,adults,women,yes").
Proof.
  apply X16_surrounding_quotes_ignored.
  vm_compute.
  repeat first [ apply Forall2_cons | apply Forall2_nil ].
  - now exists 0, 0.
  - now exists 2, 0.
  - now exists 0, 0.
  - now exists 0, 1.
  - now exists 0, 0.
Defined.

(** ** Properties of the header filter *)

Import Cells.

Lemma filter_length_count (header : str) (l : list str) :
  length (filter (fun line => negb (eqb line header)) l)
  + count_occ str_dec l header
  = length l.
Proof.
  induction l as [|x l IH]; [reflexivity|].
  cbn [filter count_occ length].
  destruct (str_dec x header) as [-> | Hne].
  - rewrite str_eqb_refl. cbn. lia.
  - apply str_eqb_neq in Hne. rewrite Hne. cbn. lia.
Qed.

(** X17. On an RDD without lines the header cell raises and no data RDD
    is made; otherwise the data RDD holds, in their order, the lines that
    differ from the first line.  Every line equal to the header is
    dropped, not only the first one: the data RDD is shorter than the raw
    one by the number of occurrences of the header. *)
Theorem X17_data_rdd_spec (raw_rdd : list str) :
  match raw_rdd with
  | [] => data_rdd raw_rdd = None
  | header :: rest =>
      exists data,
        data_rdd raw_rdd = Some data
        /\ data = filter (fun line => negb (eqb line header)) rest
        /\ ~ In header data
        /\ (forall line, In line data <-> In line raw_rdd /\ line <> header)
        /\ length data + count_occ str_dec raw_rdd header
           = length raw_rdd
  end.
Proof.
  destruct raw_rdd as [|header rest]; [reflexivity|].
  exists (filter (fun line => negb (eqb line header)) rest).
  assert (E : data_rdd (header :: rest)
              = Some (filter (fun line => negb (eqb line header))
                             rest)).
  { unfold data_rdd. cbn. now rewrite str_eqb_refl. }
  assert (Hin : forall line,
             In line (filter (fun line => negb (eqb line header)) rest)
             <-> In line (header :: rest) /\ line <> header).
  { intros line. rewrite filter_In, negb_true_iff, str_eqb_neq. cbn.
    split.
    - intros [H Hne]. split; [now right | exact Hne].
    - intros [[-> | H] Hne]; [congruence | now split]. }
  split; [exact E|]. split; [reflexivity|].
  split; [|split].
  - intros H. apply Hin in H. now destruct H.
  - exact Hin.
  - pose proof (filter_length_count header (header :: rest)) as H.
    cbn [filter] in H. rewrite str_eqb_refl in H. exact H.
Qed.

(** X18. When no later line equals the first line, the data RDD is the
    raw RDD without its first line; when one does, data lines are lost. *)
Theorem X18_data_rdd_tail (header : str) (rest : list str) :
  (~ In header rest -> data_rdd (header :: rest) = Some rest)
  /\ (In header rest ->
      exists data,
        data_rdd (header :: rest) = Some data /\ length data < length rest).
Proof.
  assert (E : data_rdd (header :: rest)
              = Some (filter (fun line => negb (eqb line header))
                             rest)).
  { unfold data_rdd. cbn. now rewrite str_eqb_refl. }
  pose proof (filter_length_count header rest) as Hlen.
  split.
  - intros Hn. rewrite E. f_equal.
    clear E Hlen. induction rest as [|x l IH]; [reflexivity|].
    cbn. destruct (eqb x header) eqn:Ex.
    + apply str_eqb_eq in Ex. subst x. exfalso. apply Hn. now left.
    + cbn. f_equal. apply IH. intros H. apply Hn. now right.
  - intros Hin. eexists. split; [exact E|].
    apply (count_occ_In str_dec) in Hin. lia.
Qed.
